(** * UsdImagingCapsuleAdapter: a shallow embedding and its properties

    Source: pxr/usdImaging/usdImaging/capsuleAdapter.cpp.

    The adapter reads the shape parameters of a capsule primitive from the
    scene description, hands them to the capsule mesh generator, and tells
    the change tracker which cached outputs depend on which attributes.

    What the embedding keeps from the C++:
    - out-parameters ([double& heightOut], ...) are fields of a record that is
      threaded through the extraction functions by a small state monad;
    - every call to the scene description ([IsA], [Get]) and every [TF_WARN]
      is appended to a trace, in program order, so that the order of the
      calls and the diagnostics can be stated;
    - [HdDirtyBits] is an unsigned 32 bit mask, here a [Z] with [Z.land] and
      [Z.lor];
    - [double] values are never computed with in this file, only moved; they
      are IEEE binary64 values ([PrimFloat.float]).

    The mesh generator (pxr/imaging/geomUtil), the base adapter
    (gprimAdapter / primAdapter) and the constants of capsuleAdapter.h are not
    part of the sources at hand: they are the variables of [Section Adapter]. *)

From Stdlib Require Import ZArith PrimFloat Lia.
From stdpp Require Import base list strings.

Local Open Scope Z_scope.

(* ------------------------------------------------------------------------- *)
(** ** Tokens, values, primitives                                             *)
(* ------------------------------------------------------------------------- *)

Definition TfToken := string.
Definition SdfPath := string.
Definition double := float.
Definition HdDirtyBits := Z.

(** Modelled from the spec: the token table of pxr/usd/usdGeom/tokens.h is not
    in the sources at hand. The spec names the attributes [height], [radius],
    [radiusBottom], [radiusTop], [axis] and the axis value [Z]. *)
Module UsdGeomTokens.
Definition height : TfToken := "height".
Definition radius : TfToken := "radius".
Definition radiusBottom : TfToken := "radiusBottom".
Definition radiusTop : TfToken := "radiusTop".
Definition axis : TfToken := "axis".
Definition z : TfToken := "Z".
End UsdGeomTokens.

(** Modelled from the spec: pxr/usdImaging/usdImaging/tokens.h is not in the
    sources at hand; the token only labels a performance counter. *)
Module UsdImagingTokens.
Definition usdVaryingPrimvar : TfToken := "usdVaryingPrimvar".
End UsdImagingTokens.

(** [UsdTimeCode] wraps a double. *)
Record UsdTimeCode := { timeValue : double }.

(** What an attribute can hold, as far as this adapter asks. *)
Inductive AttrValue :=
| DoubleValue (d : double)
| TokenValue (t : TfToken).

(** The two schema classes the adapter instantiates its template with. *)
Inductive SchemaType :=
| UsdGeomCapsule
| UsdGeomCapsule_1.

Definition SchemaType_eqb (a b : SchemaType) : bool :=
  match a, b with
  | UsdGeomCapsule, UsdGeomCapsule => true
  | UsdGeomCapsule_1, UsdGeomCapsule_1 => true
  | _, _ => false
  end.

(** Modelled from the spec: [UsdPrim] and [UsdAttribute] (pxr/usd/usd) are not
    in the sources at hand. The spec (sections 3 and 6) gives the narrow
    interface the adapter consumes: [GetPrimitiveType] returns the one schema
    variant a primitive is typed as (here [None] when it is neither capsule
    schema), [GetAttributeValue] returns a value and a success flag, and
    [IsAttributeTimeVarying] a boolean. *)
Record UsdPrim := {
  primPath : SdfPath;
  primType : option SchemaType;
  primAttr : TfToken -> UsdTimeCode -> option AttrValue;
  primAttrVaries : TfToken -> bool
}.

Record GfVec3f := { vx : double; vy : double; vz : double }.

Definition GfMatrix4d := list (list double).

Record PxOsdMeshTopology := {
  faceVertexCounts : list Z;
  faceVertexIndices : list Z
}.

Inductive HdMeshTopology :=
| HdMeshTopology_of (t : PxOsdMeshTopology).

(** A [VtValue] holds either of the two things this adapter returns. *)
Inductive VtValue :=
| VtPoints (points : list GfVec3f)
| VtTopology (topology : HdMeshTopology).

(* ------------------------------------------------------------------------- *)
(** ** The extraction monad                                                   *)
(* ------------------------------------------------------------------------- *)

(** The four out-parameters of [extractCapsuleParameters]. *)
Record CapsuleParams := {
  heightOut : double;
  radiusBottomOut : double;
  radiusTopOut : double;
  axisOut : TfToken
}.

(** Calls that leave the adapter, in program order. *)
Inductive Event :=
| EvIsA (T : SchemaType)
| EvGet (attr : TfToken)
| EvWarn (msg : string).

Record Env := { outs : CapsuleParams; trace : list Event }.

Definition M (A : Type) : Type := Env -> A * Env.

Definition ret {A} (a : A) : M A := fun s => (a, s).

Definition bind {A B} (m : M A) (k : A -> M B) : M B :=
  fun s => let (a, s') := m s in k a s'.

Notation "x <- m ;; k" := (bind m (fun x => k))
  (at level 100, m at next level, right associativity).
Notation "m ;;; k" := (bind m (fun _ => k))
  (at level 100, right associativity).

Definition emit (e : Event) : M unit :=
  fun s => (tt, {| outs := outs s; trace := trace s ++ [e] |}).

Definition store (f : CapsuleParams -> CapsuleParams) : M unit :=
  fun s => (tt, {| outs := f (outs s); trace := trace s |}).

Definition set_height (d : double) (p : CapsuleParams) : CapsuleParams :=
  {| heightOut := d; radiusBottomOut := radiusBottomOut p;
     radiusTopOut := radiusTopOut p; axisOut := axisOut p |}.

Definition set_radiusBottom (d : double) (p : CapsuleParams) : CapsuleParams :=
  {| heightOut := heightOut p; radiusBottomOut := d;
     radiusTopOut := radiusTopOut p; axisOut := axisOut p |}.

Definition set_radiusTop (d : double) (p : CapsuleParams) : CapsuleParams :=
  {| heightOut := heightOut p; radiusBottomOut := radiusBottomOut p;
     radiusTopOut := d; axisOut := axisOut p |}.

Definition set_axis (t : TfToken) (p : CapsuleParams) : CapsuleParams :=
  {| heightOut := heightOut p; radiusBottomOut := radiusBottomOut p;
     radiusTopOut := radiusTopOut p; axisOut := t |}.

(** [attr.Get(&d, time)] for a [double]: the stored value when the attribute
    holds a double at [time]. *)
Definition attr_double (prim : UsdPrim) (attr : TfToken) (time : UsdTimeCode)
  : option double :=
  match primAttr prim attr time with
  | Some (DoubleValue d) => Some d
  | _ => None
  end.

(** [attr.Get(&t, time)] for a [TfToken]. *)
Definition attr_token (prim : UsdPrim) (attr : TfToken) (time : UsdTimeCode)
  : option TfToken :=
  match primAttr prim attr time with
  | Some (TokenValue t) => Some t
  | _ => None
  end.

(** [prim.IsA<T>()]. *)
Definition IsA (prim : UsdPrim) (T : SchemaType) : M bool :=
  emit (EvIsA T) ;;;
  ret (match primType prim with
       | Some T' => SchemaType_eqb T' T
       | None => false
       end).

(** [attr.Get(&out, time)]: on success the value is written through the
    out-pointer (the setter [out]) and [true] is returned; on failure the
    target is left as it was and [false] is returned. *)
Definition Get_double (prim : UsdPrim) (attr : TfToken) (time : UsdTimeCode)
    (out : double -> CapsuleParams -> CapsuleParams) : M bool :=
  emit (EvGet attr) ;;;
  match attr_double prim attr time with
  | Some d => store (out d) ;;; ret true
  | None => ret false
  end.

Definition Get_token (prim : UsdPrim) (attr : TfToken) (time : UsdTimeCode)
    (out : TfToken -> CapsuleParams -> CapsuleParams) : M bool :=
  emit (EvGet attr) ;;;
  match attr_token prim attr time with
  | Some t => store (out t) ;;; ret true
  | None => ret false
  end.

(** [TF_WARN(fmt, capsule.GetPath().GetText())] with [fmt] ending in [%s]. *)
Definition TF_WARN (fmt : string) (prim : UsdPrim) : M unit :=
  emit (EvWarn (fmt +:+ primPath prim)).

(* ------------------------------------------------------------------------- *)
(** ** extractRadii, extractCapsuleParameters                                 *)
(* ------------------------------------------------------------------------- *)

(** [extractRadii(UsdGeomCapsule const&, ...)], lines 171-179. *)
Definition extractRadii_Capsule (prim : UsdPrim) (time : UsdTimeCode) : M unit :=
  ok <- Get_double prim UsdGeomTokens.radius time set_radiusBottom ;;
  if negb ok then
    TF_WARN "Could not evaluate double-valued radius attribute on prim " prim
  else
    store (fun p => set_radiusTop (radiusBottomOut p) p).

(** [extractRadii(UsdGeomCapsule_1 const&, ...)], lines 182-192. *)
Definition extractRadii_Capsule_1 (prim : UsdPrim) (time : UsdTimeCode) : M unit :=
  okB <- Get_double prim UsdGeomTokens.radiusBottom time set_radiusBottom ;;
  (if negb okB then
     TF_WARN "Could not evaluate double-valued bottom radius attribute on prim " prim
   else ret tt) ;;;
  okT <- Get_double prim UsdGeomTokens.radiusTop time set_radiusTop ;;
  (if negb okT then
     TF_WARN "Could not evaluate double-valued top radius attribute on prim " prim
   else ret tt).

(** Overload resolution on the capsule class. *)
Definition extractRadii (T : SchemaType) : UsdPrim -> UsdTimeCode -> M unit :=
  match T with
  | UsdGeomCapsule => extractRadii_Capsule
  | UsdGeomCapsule_1 => extractRadii_Capsule_1
  end.

(** [extractCapsuleParameters<CapsuleType>], lines 194-215. *)
Definition extractCapsuleParameters (T : SchemaType) (prim : UsdPrim)
    (time : UsdTimeCode) : M unit :=
  isa <- IsA prim T ;;
  if negb isa then ret tt
  else
    okH <- Get_double prim UsdGeomTokens.height time set_height ;;
    (if negb okH then
       TF_WARN "Could not evaluate double-valued height attribute on prim " prim
     else ret tt) ;;;
    extractRadii T prim time ;;;
    okA <- Get_token prim UsdGeomTokens.axis time set_axis ;;
    (if negb okA then
       TF_WARN "Could not evaluate token-valued axis attribute on prim " prim
     else ret tt).

(** The initial values of the locals of [GetPoints], lines 226-229. *)
Definition builtin_defaults : CapsuleParams :=
  {| heightOut := 2.0%float;
     radiusBottomOut := 0.5%float;
     radiusTopOut := 0.5%float;
     axisOut := UsdGeomTokens.z |}.

(** Lines 226-233 of [GetPoints]: the locals and the trace after the two
    extraction calls. *)
Definition GetPoints_parameters (prim : UsdPrim) (time : UsdTimeCode) : Env :=
  snd ((extractCapsuleParameters UsdGeomCapsule prim time ;;;
        extractCapsuleParameters UsdGeomCapsule_1 prim time)
         {| outs := builtin_defaults; trace := [] |}).

(** Readers of a trace. *)
Definition variants_tried (tr : list Event) : list SchemaType :=
  omap (fun e => match e with EvIsA T => Some T | _ => None end) tr.

Definition attributes_read (tr : list Event) : list TfToken :=
  omap (fun e => match e with EvGet a => Some a | _ => None end) tr.

Definition warnings (tr : list Event) : list string :=
  omap (fun e => match e with EvWarn m => Some m | _ => None end) tr.

(* ------------------------------------------------------------------------- *)
(** ** Sample primitives and stand-ins for the collaborators                  *)
(* ------------------------------------------------------------------------- *)

Module Samples.

Fixpoint lookup_attr (name : TfToken) (l : list (TfToken * AttrValue))
  : option AttrValue :=
  match l with
  | [] => None
  | (k, v) :: l' => if String.eqb k name then Some v else lookup_attr name l'
  end.

(** A primitive whose attributes hold the same value at every time. *)
Definition static_prim (path : SdfPath) (ty : option SchemaType)
    (l : list (TfToken * AttrValue)) : UsdPrim :=
  {| primPath := path;
     primType := ty;
     primAttr := fun name _ => lookup_attr name l;
     primAttrVaries := fun _ => false |}.

Definition frame (f : double) : UsdTimeCode := {| timeValue := f |}.

(** Legacy schema, [height = 2.0], [radius = 0.5], no axis to read. *)
Definition legacyCapsule : UsdPrim :=
  static_prim "/World/Legacy" (Some UsdGeomCapsule)
    [("height", DoubleValue 2.0%float); ("radius", DoubleValue 0.5%float)].

(** Dual-radius schema, [radiusBottom = radiusTop = 0.5], [axis = Z]. *)
Definition dualCapsule : UsdPrim :=
  static_prim "/World/Dual" (Some UsdGeomCapsule_1)
    [("height", DoubleValue 2.0%float);
     ("radiusBottom", DoubleValue 0.5%float);
     ("radiusTop", DoubleValue 0.5%float);
     ("axis", TokenValue "Z")].

(** Dual-radius schema with other values, along X. *)
Definition coneCapsule : UsdPrim :=
  static_prim "/World/Cone" (Some UsdGeomCapsule_1)
    [("height", DoubleValue 7.0%float);
     ("radiusBottom", DoubleValue 3.0%float);
     ("radiusTop", DoubleValue 0.25%float);
     ("axis", TokenValue "X")].

(** Typed as neither capsule schema, although it carries a radius. *)
Definition spherePrim : UsdPrim :=
  static_prim "/World/Sphere" None
    [("radius", DoubleValue 4.0%float); ("height", DoubleValue 9.0%float)].

(** Dual-radius schema whose [radiusTop] holds a token: reading it as a
    double fails. *)
Definition brokenTopCapsule : UsdPrim :=
  static_prim "/World/BrokenTop" (Some UsdGeomCapsule_1)
    [("height", DoubleValue 3.0%float);
     ("radiusBottom", DoubleValue 1.5%float);
     ("radiusTop", TokenValue "wide");
     ("axis", TokenValue "Y")].

(** Legacy schema whose [height] is animated; the rest is constant. *)
Definition growingCapsule : UsdPrim :=
  {| primPath := "/World/Growing";
     primType := Some UsdGeomCapsule;
     primAttr := fun name t =>
       if String.eqb name "height" then Some (DoubleValue (timeValue t))
       else lookup_attr name [("radius", DoubleValue 0.5%float);
                              ("axis", TokenValue "Z")];
     primAttrVaries := fun name => String.eqb name "height" |}.

(** Dual-radius schema whose [radiusTop] is animated (0.5 before frame 10,
    1.0 from then on); the rest is constant. *)
Definition flaringCapsule : UsdPrim :=
  {| primPath := "/World/Flaring";
     primType := Some UsdGeomCapsule_1;
     primAttr := fun name t =>
       if String.eqb name "radiusTop" then
         Some (DoubleValue (if PrimFloat.ltb (timeValue t) 10 then 0.5 else 1.0)%float)
       else lookup_attr name [("height", DoubleValue 2.0%float);
                              ("radiusBottom", DoubleValue 0.5%float);
                              ("axis", TokenValue "Z")];
     primAttrVaries := fun name => String.eqb name "radiusTop" |}.

(** Modelled from the spec: [UsdImagingPrimAdapter::_IsVarying] is defined in
    primAdapter.cpp, which is not in the sources at hand. Spec section 4.3:
    it asks the scene description whether the attribute is time varying and,
    if so, sets the flag of the category. *)
Definition IsVarying_spec (prim : UsdPrim) (attrName : TfToken)
    (dirtyFlag : HdDirtyBits) (perfToken : TfToken) (dirtyFlags : HdDirtyBits)
    (inherited : bool) : HdDirtyBits :=
  if primAttrVaries prim attrName then Z.lor dirtyFlags dirtyFlag else dirtyFlags.

(** A generator stand-in that writes its own arguments out as points, so
    that whatever reaches the generator shows in the result. *)
Definition echo_GeneratePoints (numRadial numCapAxial : nat)
    (radiusBottom radiusTop height sweep : double) (basis : GfMatrix4d)
  : list GfVec3f :=
  {| vx := radiusBottom; vy := radiusTop; vz := height |} ::
  {| vx := sweep; vy := 0%float; vz := 0%float |} ::
  omap (fun row => match row with
                   | a :: b :: c :: _ => Some {| vx := a; vy := b; vz := c |}
                   | _ => None
                   end) basis.

(** A generator stand-in that answers only for a full revolution. *)
Definition closed_GeneratePoints (numRadial numCapAxial : nat)
    (radiusBottom radiusTop height sweep : double) (basis : GfMatrix4d)
  : list GfVec3f :=
  if PrimFloat.eqb sweep 360%float then
    echo_GeneratePoints numRadial numCapAxial radiusBottom radiusTop height
      sweep basis
  else [].

Definition sample_ComputeNumPoints (numRadial numCapAxial : nat) : nat :=
  (2 * numCapAxial * numRadial + 2)%nat.

Definition sample_GetImplicitBasis (axis : TfToken) : GfMatrix4d :=
  let X := [1; 0; 0; 0]%float in
  let Y := [0; 1; 0; 0]%float in
  let Z := [0; 0; 1; 0]%float in
  let W := [0; 0; 0; 1]%float in
  if String.eqb axis "X" then [Y; Z; X; W]
  else if String.eqb axis "Y" then [Z; X; Y; W]
  else [X; Y; Z; W].

Definition sample_GenerateTopology (numRadial numCapAxial : nat)
  : PxOsdMeshTopology :=
  {| faceVertexCounts := replicate numRadial 3;
     faceVertexIndices := Z.of_nat <$> seq 0 (3 * numRadial) |}.

(** [HdChangeTracker::DirtyPoints] as Hydra declares it, bit 5. *)
Definition sample_DirtyPoints : HdDirtyBits := Z.shiftl 1 5.

(** A base adapter that marks nothing as varying. *)
Definition quiet_TrackVariability (prim : UsdPrim) (cachePath : SdfPath)
    (timeVaryingBits : HdDirtyBits) (instancerContext : unit) : HdDirtyBits :=
  timeVaryingBits.

(** A base adapter that knows [visibility] and dirties everything else. *)
Definition sample_ProcessPropertyChange (prim : UsdPrim) (cachePath : SdfPath)
    (propertyName : TfToken) : HdDirtyBits :=
  if String.eqb propertyName "visibility" then Z.shiftl 1 10
  else Z.ones 32 - 2.

(** A data source that remembers the path it was made for. *)
Definition sample_PrimSource_New (path : SdfPath) (prim : UsdPrim)
    (stageGlobals : unit) : SdfPath :=
  path.

(** An invalidation that answers one locator per changed property. *)
Definition sample_PrimSource_Invalidate (prim : UsdPrim) (subprim : TfToken)
    (properties : list TfToken) : list (list TfToken) :=
  (fun name => [name]) <$> properties.

End Samples.

(* ------------------------------------------------------------------------- *)
(** ** The adapter                                                            *)
(* ------------------------------------------------------------------------- *)

(** A freshly sized [VtVec3fArray(n)]: [n] value-initialised elements. *)
Definition VtVec3fArray (n : nat) : list GfVec3f :=
  replicate n {| vx := 0%float; vy := 0%float; vz := 0%float |}.

(** What a generator does with the output iterator it is given: the points
    it produces are stored one after the other, [*iter++ = p], starting at
    position [i] of the array. The array is never resized; a store past its
    end (undefined in C++) leaves it as it is. *)
Fixpoint write_from (i : nat) (pts : list GfVec3f) (buf : list GfVec3f)
  : list GfVec3f :=
  match pts with
  | [] => buf
  | p :: pts' => write_from (S i) pts' (<[i := p]> buf)
  end.

(** State of [TrackVariability]: the mask behind [timeVaryingBits], and the
    attribute names [_IsVarying] was called with, in call order. *)
Record Variability := {
  timeVaryingBits : HdDirtyBits;
  varyingChecks : list TfToken
}.

(** The function-local [static const HdMeshTopology topology] of
    [GetTopology]: empty until the first call initialises it. *)
Definition TopologyStatic := option HdMeshTopology.

(** [TfToken()], the empty token, and [TfToken::IsEmpty]. *)
Definition TfToken_empty : TfToken := "".

Definition IsEmpty (t : TfToken) : bool := bool_decide (t = TfToken_empty).

(** [TfTokenVector]. *)
Definition TfTokenVector := list TfToken.

(** A data source locator is a path of tokens; [HdDataSourceLocatorSet()] is
    the set without locators. *)
Definition HdDataSourceLocator := list TfToken.
Definition HdDataSourceLocatorSet := list HdDataSourceLocator.

Section Adapter.

(** [numRadial] and [numCapAxial], the constants of capsuleAdapter.h. *)
Variables numRadial numCapAxial : nat.

(** [GeomUtilCapsuleMeshGenerator]. [GeneratePoints] is given by the sequence
    of points it writes to its output iterator. *)
Variable ComputeNumPoints : nat -> nat -> nat.
Variable GeneratePoints :
  nat -> nat -> double -> double -> double -> double -> GfMatrix4d -> list GfVec3f.
Variable GenerateTopology : nat -> nat -> PxOsdMeshTopology.

(** [UsdImagingGprimAdapter::GetImplicitBasis]. *)
Variable GetImplicitBasis : TfToken -> GfMatrix4d.

(** [HdChangeTracker::DirtyPoints]. *)
Variable DirtyPoints : HdDirtyBits.

(** The base adapter: [BaseAdapter::TrackVariability] by what it leaves in
    [*timeVaryingBits], [BaseAdapter::ProcessPropertyChange] by its result,
    and [_IsVarying] by what it leaves in [*dirtyFlags]. *)
Variable UsdImagingInstancerContext : Type.
Variable BaseAdapter_TrackVariability :
  UsdPrim -> SdfPath -> HdDirtyBits -> UsdImagingInstancerContext -> HdDirtyBits.
Variable BaseAdapter_ProcessPropertyChange :
  UsdPrim -> SdfPath -> TfToken -> HdDirtyBits.
Variable _IsVarying :
  UsdPrim -> TfToken -> HdDirtyBits -> TfToken -> HdDirtyBits -> bool -> HdDirtyBits.

(** One call of [_IsVarying] on [*timeVaryingBits], recorded. *)
Definition check_varying (prim : UsdPrim) (attrName : TfToken)
    (v : Variability) : Variability :=
  {| timeVaryingBits :=
       _IsVarying prim attrName DirtyPoints UsdImagingTokens.usdVaryingPrimvar
         (timeVaryingBits v) false;
     varyingChecks := varyingChecks v ++ [attrName] |}.

(** [UsdImagingCapsuleAdapter::TrackVariability], lines 124-154. *)
Definition TrackVariability (prim : UsdPrim) (cachePath : SdfPath)
    (bits : HdDirtyBits) (instancerContext : UsdImagingInstancerContext)
  : Variability :=
  let v := {| timeVaryingBits :=
                BaseAdapter_TrackVariability prim cachePath bits instancerContext;
              varyingChecks := [] |} in
  let v := if Z.land (timeVaryingBits v) DirtyPoints =? 0
           then check_varying prim UsdGeomTokens.height v else v in
  let v := if Z.land (timeVaryingBits v) DirtyPoints =? 0
           then check_varying prim UsdGeomTokens.radius v else v in
  let v := if Z.land (timeVaryingBits v) DirtyPoints =? 0
           then check_varying prim UsdGeomTokens.axis v else v in
  v.

(** [UsdImagingCapsuleAdapter::ProcessPropertyChange], lines 156-169. *)
Definition ProcessPropertyChange (prim : UsdPrim) (cachePath : SdfPath)
    (propertyName : TfToken) : HdDirtyBits :=
  if bool_decide (propertyName = UsdGeomTokens.height)
     || bool_decide (propertyName = UsdGeomTokens.radius)
     || bool_decide (propertyName = UsdGeomTokens.axis)
  then DirtyPoints
  else BaseAdapter_ProcessPropertyChange prim cachePath propertyName.

(** [UsdImagingCapsuleAdapter::GetPoints], lines 218-257: the returned value
    and the trace of the calls made for it. *)
Definition GetPoints (prim : UsdPrim) (time : UsdTimeCode)
  : VtValue * list Event :=
  let env := GetPoints_parameters prim time in
  let height := heightOut (outs env) in
  let radiusBottom := radiusBottomOut (outs env) in
  let radiusTop := radiusTopOut (outs env) in
  let axis := axisOut (outs env) in
  let basis := GetImplicitBasis axis in
  let numPoints := ComputeNumPoints numRadial numCapAxial in
  let points := VtVec3fArray numPoints in
  let sweep := 360%float in
  let points :=
    write_from 0
      (GeneratePoints numRadial numCapAxial radiusBottom radiusTop height
         sweep basis)
      points in
  (VtPoints points, trace env).

(** [UsdImagingCapsuleAdapter::GetTopology], lines 259-274: the returned value
    and the static after the call. *)
Definition GetTopology (static : TopologyStatic) (prim : UsdPrim)
    (cachePath : SdfPath) (time : UsdTimeCode) : VtValue * TopologyStatic :=
  let topology :=
    match static with
    | Some t => t
    | None => HdMeshTopology_of (GenerateTopology numRadial numCapAxial)
    end in
  (VtTopology topology, Some topology).

(** The values the static can hold during a run of the program. *)
Inductive static_reachable : TopologyStatic -> Prop :=
| reachable_start : static_reachable None
| reachable_call s prim cachePath time :
    static_reachable s ->
    static_reachable (snd (GetTopology s prim cachePath time)).

(** [HdPrimTypeTokens->capsule]. *)
Variable HdPrimTypeTokens_capsule : TfToken.

(** [_PrimSource], that is [UsdImagingDataSourceImplicitsPrim<UsdGeomCapsule_1,
    HdCapsuleSchema>]: [New] by the data source it allocates, [Invalidate] by
    the locators it returns. *)
Variable HdContainerDataSource : Type.
Variable UsdImagingDataSourceStageGlobals : Type.
Variable PrimSource_New :
  SdfPath -> UsdPrim -> UsdImagingDataSourceStageGlobals -> HdContainerDataSource.
Variable PrimSource_Invalidate :
  UsdPrim -> TfToken -> TfTokenVector -> HdDataSourceLocatorSet.

(** [UsdImagingCapsuleAdapter::GetImagingSubprims], lines 63-67. *)
Definition GetImagingSubprims (prim : UsdPrim) : TfTokenVector :=
  [TfToken_empty].

(** [UsdImagingCapsuleAdapter::GetImagingSubprimType], lines 69-78. *)
Definition GetImagingSubprimType (prim : UsdPrim) (subprim : TfToken) : TfToken :=
  if IsEmpty subprim then HdPrimTypeTokens_capsule else TfToken_empty.

(** [UsdImagingCapsuleAdapter::GetImagingSubprimData], lines 80-93; [None] is
    the null handle. *)
Definition GetImagingSubprimData (prim : UsdPrim) (subprim : TfToken)
    (stageGlobals : UsdImagingDataSourceStageGlobals)
  : option HdContainerDataSource :=
  if IsEmpty subprim then Some (PrimSource_New (primPath prim) prim stageGlobals)
  else None.

(** [UsdImagingCapsuleAdapter::InvalidateImagingSubprim], lines 95-106. *)
Definition InvalidateImagingSubprim (prim : UsdPrim) (subprim : TfToken)
    (properties : TfTokenVector) : HdDataSourceLocatorSet :=
  if IsEmpty subprim then PrimSource_Invalidate prim subprim properties
  else [].

(* ------------------------------------------------------------------------- *)
(** ** Running the extraction                                                 *)
(* ------------------------------------------------------------------------- *)

Ltac run_extract :=
  unfold GetPoints_parameters, extractCapsuleParameters, extractRadii,
    extractRadii_Capsule, extractRadii_Capsule_1, Get_double, Get_token,
    IsA, TF_WARN, bind, ret, emit, store.

(** Case analysis on the outcome of every attribute read in the goal. *)
Ltac split_reads :=
  repeat match goal with
    | |- context [attr_double ?p ?a ?t] => destruct (attr_double p a t) eqn:?
    | |- context [attr_token ?p ?a ?t] => destruct (attr_token p a t) eqn:?
    end.

Local Abbreviation warn_if_none o fmt prim :=
  (match o with Some _ => [] | None => [(fmt +:+ primPath prim)%string] end).

Lemma length_write_from pts : forall i buf,
  length (write_from i pts buf) = length buf.
Proof.
  induction pts as [|p pts IH]; intros i buf; simpl.
  - reflexivity.
  - rewrite IH. apply length_insert.
Qed.

Lemma length_VtVec3fArray n : length (VtVec3fArray n) = n.
Proof. apply length_replicate. Qed.

(** The static only ever holds the topology generated for the adapter's own
    resolution. *)
Lemma static_reachable_inv s :
  static_reachable s ->
  s = None \/ s = Some (HdMeshTopology_of (GenerateTopology numRadial numCapAxial)).
Proof.
  induction 1 as [|s prim cachePath time _ [-> | ->]]; simpl; auto.
Qed.

(** The locals of [GetPoints] for a primitive of the legacy schema. *)
Lemma parameters_legacy prim time :
  primType prim = Some UsdGeomCapsule ->
  outs (GetPoints_parameters prim time) =
    {| heightOut := default 2.0%float (attr_double prim UsdGeomTokens.height time);
       radiusBottomOut := default 0.5%float (attr_double prim UsdGeomTokens.radius time);
       radiusTopOut := default 0.5%float (attr_double prim UsdGeomTokens.radius time);
       axisOut := default UsdGeomTokens.z (attr_token prim UsdGeomTokens.axis time) |}.
Proof.
  intros HT. run_extract. rewrite HT. simpl. split_reads; reflexivity.
Qed.

(** The locals of [GetPoints] for a primitive of the dual-radius schema. *)
Lemma parameters_dual prim time :
  primType prim = Some UsdGeomCapsule_1 ->
  outs (GetPoints_parameters prim time) =
    {| heightOut := default 2.0%float (attr_double prim UsdGeomTokens.height time);
       radiusBottomOut :=
         default 0.5%float (attr_double prim UsdGeomTokens.radiusBottom time);
       radiusTopOut := default 0.5%float (attr_double prim UsdGeomTokens.radiusTop time);
       axisOut := default UsdGeomTokens.z (attr_token prim UsdGeomTokens.axis time) |}.
Proof.
  intros HT. run_extract. rewrite HT. simpl. split_reads; reflexivity.
Qed.

(** The calls [GetPoints] makes for a primitive of the legacy schema. *)
Lemma trace_legacy prim time :
  primType prim = Some UsdGeomCapsule ->
  trace (GetPoints_parameters prim time) =
    EvIsA UsdGeomCapsule ::
    (EvGet UsdGeomTokens.height ::
     (EvWarn <$> warn_if_none (attr_double prim UsdGeomTokens.height time)
        "Could not evaluate double-valued height attribute on prim " prim) ++
     EvGet UsdGeomTokens.radius ::
     (EvWarn <$> warn_if_none (attr_double prim UsdGeomTokens.radius time)
        "Could not evaluate double-valued radius attribute on prim " prim) ++
     EvGet UsdGeomTokens.axis ::
     (EvWarn <$> warn_if_none (attr_token prim UsdGeomTokens.axis time)
        "Could not evaluate token-valued axis attribute on prim " prim)) ++
    [EvIsA UsdGeomCapsule_1].
Proof.
  intros HT. run_extract. rewrite HT. simpl. split_reads; reflexivity.
Qed.

(** The calls [GetPoints] makes for a primitive of the dual-radius schema. *)
Lemma trace_dual prim time :
  primType prim = Some UsdGeomCapsule_1 ->
  trace (GetPoints_parameters prim time) =
    EvIsA UsdGeomCapsule :: EvIsA UsdGeomCapsule_1 ::
    EvGet UsdGeomTokens.height ::
    (EvWarn <$> warn_if_none (attr_double prim UsdGeomTokens.height time)
       "Could not evaluate double-valued height attribute on prim " prim) ++
    EvGet UsdGeomTokens.radiusBottom ::
    (EvWarn <$> warn_if_none (attr_double prim UsdGeomTokens.radiusBottom time)
       "Could not evaluate double-valued bottom radius attribute on prim " prim) ++
    EvGet UsdGeomTokens.radiusTop ::
    (EvWarn <$> warn_if_none (attr_double prim UsdGeomTokens.radiusTop time)
       "Could not evaluate double-valued top radius attribute on prim " prim) ++
    EvGet UsdGeomTokens.axis ::
    (EvWarn <$> warn_if_none (attr_token prim UsdGeomTokens.axis time)
       "Could not evaluate token-valued axis attribute on prim " prim).
Proof.
  intros HT. run_extract. rewrite HT. simpl. split_reads; reflexivity.
Qed.

(** The locals of [GetPoints] for a primitive of neither schema. *)
Lemma parameters_untyped prim time :
  primType prim = None ->
  GetPoints_parameters prim time =
    {| outs := builtin_defaults;
       trace := [EvIsA UsdGeomCapsule; EvIsA UsdGeomCapsule_1] |}.
Proof.
  intros HT. run_extract. rewrite HT. reflexivity.
Qed.

(* ------------------------------------------------------------------------- *)
(** ** Change processing                                                      *)
(* ------------------------------------------------------------------------- *)

(** C1. [ProcessPropertyChange] answers [DirtyPoints], a mask that contains
    the Points category, when the property is named [height], [radius] or
    [axis]; for every other name it answers what the base adapter's
    [ProcessPropertyChange] answers for that name. *)
Theorem ProcessPropertyChange_mapping prim cachePath propertyName :
  (propertyName = UsdGeomTokens.height \/
   propertyName = UsdGeomTokens.radius \/
   propertyName = UsdGeomTokens.axis ->
   ProcessPropertyChange prim cachePath propertyName = DirtyPoints /\
   Z.land (ProcessPropertyChange prim cachePath propertyName) DirtyPoints
     = DirtyPoints) /\
  (propertyName <> UsdGeomTokens.height ->
   propertyName <> UsdGeomTokens.radius ->
   propertyName <> UsdGeomTokens.axis ->
   ProcessPropertyChange prim cachePath propertyName
     = BaseAdapter_ProcessPropertyChange prim cachePath propertyName).
Proof.
  unfold ProcessPropertyChange. split.
  - intros Hname.
    assert (Hor : bool_decide (propertyName = UsdGeomTokens.height)
                  || bool_decide (propertyName = UsdGeomTokens.radius)
                  || bool_decide (propertyName = UsdGeomTokens.axis) = true).
    { destruct Hname as [-> | [-> | ->]]; reflexivity. }
    rewrite Hor. split; [reflexivity | apply Z.land_diag].
  - intros Hh Hr Ha.
    rewrite !bool_decide_eq_false_2 by assumption. reflexivity.
Qed.

(* ------------------------------------------------------------------------- *)
(** ** Topology                                                               *)
(* ------------------------------------------------------------------------- *)

(** C2. [GetTopology] is constant: whatever the primitives, cache paths and
    times of two calls, and wherever in the run of the program they happen,
    both return the same topology, the one generated for
    [(numRadial, numCapAxial)]. *)
Theorem GetTopology_constant s1 s2 prim1 prim2 path1 path2 time1 time2 :
  static_reachable s1 ->
  static_reachable s2 ->
  fst (GetTopology s1 prim1 path1 time1) = fst (GetTopology s2 prim2 path2 time2) /\
  fst (GetTopology s1 prim1 path1 time1)
    = VtTopology (HdMeshTopology_of (GenerateTopology numRadial numCapAxial)).
Proof.
  intros H1 H2.
  destruct (static_reachable_inv s1 H1) as [-> | ->],
           (static_reachable_inv s2 H2) as [-> | ->]; split; reflexivity.
Qed.

(* ------------------------------------------------------------------------- *)
(** ** Points                                                                 *)
(* ------------------------------------------------------------------------- *)

(** C3. The array [GetPoints] returns has exactly
    [ComputeNumPoints numRadial numCapAxial] elements, for every primitive,
    every time and every resolution (so in particular for [numRadial >= 3]
    and [numCapAxial >= 1]), whatever the generator writes. *)
Theorem GetPoints_length prim time :
  exists points,
    fst (GetPoints prim time) = VtPoints points /\
    length points = ComputeNumPoints numRadial numCapAxial.
Proof.
  unfold GetPoints. simpl. eexists. split; [reflexivity |].
  rewrite length_write_from. apply length_VtVec3fArray.
Qed.

(* ------------------------------------------------------------------------- *)
(** ** Variability                                                            *)
(* ------------------------------------------------------------------------- *)

(** C4. [TrackVariability] stops checking as soon as the Points bit is set.
    With [b0] the mask the base adapter leaves and [bH], [bR], [bA] the masks
    after the checks of [height], [radius] and [axis]: if Points is set in
    [b0] nothing is checked and the mask stays [b0]; if the [height] check
    sets it, [height] is the only check and the mask stays [bH] (the case of
    a varying height with constant radius and axis); if the [radius] check
    sets it, [axis] is not checked; otherwise all three are checked. *)
Theorem TrackVariability_short_circuit prim cachePath bits instancerContext :
  let perf := UsdImagingTokens.usdVaryingPrimvar in
  let b0 := BaseAdapter_TrackVariability prim cachePath bits instancerContext in
  let bH := _IsVarying prim UsdGeomTokens.height DirtyPoints perf b0 false in
  let bR := _IsVarying prim UsdGeomTokens.radius DirtyPoints perf bH false in
  let bA := _IsVarying prim UsdGeomTokens.axis DirtyPoints perf bR false in
  let result := TrackVariability prim cachePath bits instancerContext in
  (Z.land b0 DirtyPoints <> 0 ->
   result = {| timeVaryingBits := b0; varyingChecks := [] |}) /\
  (Z.land b0 DirtyPoints = 0 -> Z.land bH DirtyPoints <> 0 ->
   result = {| timeVaryingBits := bH;
               varyingChecks := [UsdGeomTokens.height] |}) /\
  (Z.land b0 DirtyPoints = 0 -> Z.land bH DirtyPoints = 0 ->
   Z.land bR DirtyPoints <> 0 ->
   result = {| timeVaryingBits := bR;
               varyingChecks := [UsdGeomTokens.height; UsdGeomTokens.radius] |}) /\
  (Z.land b0 DirtyPoints = 0 -> Z.land bH DirtyPoints = 0 ->
   Z.land bR DirtyPoints = 0 ->
   result = {| timeVaryingBits := bA;
               varyingChecks := [UsdGeomTokens.height; UsdGeomTokens.radius;
                                 UsdGeomTokens.axis] |}).
Proof.
  intros perf b0 bH bR bA result. subst result.
  unfold TrackVariability, check_varying. cbn [timeVaryingBits varyingChecks].
  fold b0. repeat split.
  - intros H0. apply Z.eqb_neq in H0. rewrite H0. cbn [timeVaryingBits].
    rewrite H0. cbn [timeVaryingBits]. rewrite H0. reflexivity.
  - intros H0 HH. apply Z.eqb_eq in H0. apply Z.eqb_neq in HH.
    rewrite H0. cbn [timeVaryingBits varyingChecks]. fold perf. fold bH.
    rewrite HH. cbn [timeVaryingBits]. rewrite HH. reflexivity.
  - intros H0 HH HR. apply Z.eqb_eq in H0, HH. apply Z.eqb_neq in HR.
    rewrite H0. cbn [timeVaryingBits varyingChecks]. fold perf. fold bH.
    rewrite HH. cbn [timeVaryingBits varyingChecks]. fold bR.
    rewrite HR. reflexivity.
  - intros H0 HH HR. apply Z.eqb_eq in H0, HH, HR.
    rewrite H0. cbn [timeVaryingBits varyingChecks]. fold perf. fold bH.
    rewrite HH. cbn [timeVaryingBits varyingChecks]. fold bR.
    rewrite HR. reflexivity.
Qed.

(** Whatever the primitive, [TrackVariability] asks [_IsVarying] about no
    attribute other than [height], [radius] and [axis]. *)
Lemma TrackVariability_checks_among prim cachePath bits instancerContext attr :
  attr ∈ varyingChecks (TrackVariability prim cachePath bits instancerContext) ->
  attr ∈ [UsdGeomTokens.height; UsdGeomTokens.radius; UsdGeomTokens.axis].
Proof using Type.
  unfold TrackVariability, check_varying.
  repeat (match goal with
          | |- context [if ?c then _ else _] => destruct c
          end; cbn [timeVaryingBits varyingChecks app]);
    intros Hin;
    repeat (apply elem_of_cons in Hin as [-> | Hin]);
    try (apply elem_of_nil in Hin; contradiction);
    repeat constructor.
Qed.

(* ------------------------------------------------------------------------- *)
(** ** Schema variants                                                        *)
(* ------------------------------------------------------------------------- *)

(** C5. A primitive of the legacy schema with height [h] and radius [r] whose
    axis is not authored (the read fails, or yields the fallback [Z]) gets
    from [GetPoints] the same points as a primitive of the dual-radius schema
    with height [h], [radiusBottom = radiusTop = r] and [axis = Z]; and the
    legacy extraction leaves [r] in both radii. The claim is the case
    [h = 2.0], [r = 0.5]. *)
Theorem legacy_matches_dual_radius legacy dual time h r :
  primType legacy = Some UsdGeomCapsule ->
  attr_double legacy UsdGeomTokens.height time = Some h ->
  attr_double legacy UsdGeomTokens.radius time = Some r ->
  (attr_token legacy UsdGeomTokens.axis time = None \/
   attr_token legacy UsdGeomTokens.axis time = Some UsdGeomTokens.z) ->
  primType dual = Some UsdGeomCapsule_1 ->
  attr_double dual UsdGeomTokens.height time = Some h ->
  attr_double dual UsdGeomTokens.radiusBottom time = Some r ->
  attr_double dual UsdGeomTokens.radiusTop time = Some r ->
  attr_token dual UsdGeomTokens.axis time = Some UsdGeomTokens.z ->
  fst (GetPoints legacy time) = fst (GetPoints dual time) /\
  radiusBottomOut (outs (GetPoints_parameters legacy time)) = r /\
  radiusTopOut (outs (GetPoints_parameters legacy time)) = r.
Proof.
  intros HL HLh HLr HLa HD HDh HDb HDt HDa.
  assert (EL : outs (GetPoints_parameters legacy time) =
               {| heightOut := h; radiusBottomOut := r; radiusTopOut := r;
                  axisOut := UsdGeomTokens.z |}).
  { rewrite (parameters_legacy _ _ HL), HLh, HLr.
    destruct HLa as [-> | ->]; reflexivity. }
  assert (ED : outs (GetPoints_parameters dual time) =
               {| heightOut := h; radiusBottomOut := r; radiusTopOut := r;
                  axisOut := UsdGeomTokens.z |}).
  { rewrite (parameters_dual _ _ HD), HDh, HDb, HDt, HDa. reflexivity. }
  unfold GetPoints. cbn [fst]. rewrite EL, ED. auto.
Qed.

(** C6, as amended. [GetPoints] tries both variants, always and in a fixed
    order: the legacy single-radius variant first, then the dual-radius
    variant. Each try checks the type on its own and reads the attributes of
    its variant only when the primitive is of that variant. *)
Theorem GetPoints_resolution_order prim time :
  exists trL trN,
    trace (GetPoints_parameters prim time)
      = EvIsA UsdGeomCapsule :: trL ++ EvIsA UsdGeomCapsule_1 :: trN /\
    variants_tried trL = [] /\
    variants_tried trN = [] /\
    attributes_read trL =
      match primType prim with
      | Some UsdGeomCapsule =>
          [UsdGeomTokens.height; UsdGeomTokens.radius; UsdGeomTokens.axis]
      | _ => []
      end /\
    attributes_read trN =
      match primType prim with
      | Some UsdGeomCapsule_1 =>
          [UsdGeomTokens.height; UsdGeomTokens.radiusBottom;
           UsdGeomTokens.radiusTop; UsdGeomTokens.axis]
      | _ => []
      end.
Proof.
  destruct (primType prim) as [[|]|] eqn:HT.
  - rewrite (trace_legacy _ _ HT).
    eexists; exists []; split; [reflexivity |].
    split_reads; repeat split; reflexivity.
  - rewrite (trace_dual _ _ HT).
    exists []; eexists; split; [reflexivity |].
    split_reads; repeat split; reflexivity.
  - rewrite (parameters_untyped _ _ HT).
    exists [], []. repeat split; reflexivity.
Qed.

(** C8. Reading the parameters of a primitive of either variant never stops
    half way: every attribute of the variant is read, in order, whatever the
    outcome of the other reads; a field whose read fails keeps its built-in
    default (for the legacy [radius], both radii do); and there is one
    warning per failed read, none otherwise. *)
Theorem parameter_reads_are_partial prim time T :
  primType prim = Some T ->
  let env := GetPoints_parameters prim time in
  let h := attr_double prim UsdGeomTokens.height time in
  let r := attr_double prim UsdGeomTokens.radius time in
  let rB := attr_double prim UsdGeomTokens.radiusBottom time in
  let rT := attr_double prim UsdGeomTokens.radiusTop time in
  let a := attr_token prim UsdGeomTokens.axis time in
  heightOut (outs env) = default (heightOut builtin_defaults) h /\
  axisOut (outs env) = default (axisOut builtin_defaults) a /\
  match T with
  | UsdGeomCapsule =>
      radiusBottomOut (outs env) = default (radiusBottomOut builtin_defaults) r /\
      radiusTopOut (outs env) = default (radiusTopOut builtin_defaults) r /\
      attributes_read (trace env) =
        [UsdGeomTokens.height; UsdGeomTokens.radius; UsdGeomTokens.axis] /\
      warnings (trace env) =
        warn_if_none h
          "Could not evaluate double-valued height attribute on prim " prim ++
        warn_if_none r
          "Could not evaluate double-valued radius attribute on prim " prim ++
        warn_if_none a
          "Could not evaluate token-valued axis attribute on prim " prim
  | UsdGeomCapsule_1 =>
      radiusBottomOut (outs env) = default (radiusBottomOut builtin_defaults) rB /\
      radiusTopOut (outs env) = default (radiusTopOut builtin_defaults) rT /\
      attributes_read (trace env) =
        [UsdGeomTokens.height; UsdGeomTokens.radiusBottom;
         UsdGeomTokens.radiusTop; UsdGeomTokens.axis] /\
      warnings (trace env) =
        warn_if_none h
          "Could not evaluate double-valued height attribute on prim " prim ++
        warn_if_none rB
          "Could not evaluate double-valued bottom radius attribute on prim " prim ++
        warn_if_none rT
          "Could not evaluate double-valued top radius attribute on prim " prim ++
        warn_if_none a
          "Could not evaluate token-valued axis attribute on prim " prim
  end.
Proof.
  intros HT env h r rB rT a. subst env h r rB rT a.
  run_extract. rewrite HT.
  destruct T; simpl; split_reads; repeat split; reflexivity.
Qed.

(** C9. For a primitive typed as neither capsule schema [GetPoints] still
    returns a points array: no attribute is read, no warning is given, the
    parameters are the built-in defaults (height 2.0, both radii 0.5, axis Z)
    and the points are the generator's for these, over a full revolution. *)
Theorem GetPoints_untyped_uses_defaults prim time :
  primType prim = None ->
  outs (GetPoints_parameters prim time) =
    {| heightOut := 2.0%float; radiusBottomOut := 0.5%float;
       radiusTopOut := 0.5%float; axisOut := UsdGeomTokens.z |} /\
  attributes_read (trace (GetPoints_parameters prim time)) = [] /\
  warnings (trace (GetPoints_parameters prim time)) = [] /\
  GetPoints prim time =
    (VtPoints
       (write_from 0
          (GeneratePoints numRadial numCapAxial 0.5%float 0.5%float 2.0%float
             360%float (GetImplicitBasis UsdGeomTokens.z))
          (VtVec3fArray (ComputeNumPoints numRadial numCapAxial))),
     [EvIsA UsdGeomCapsule; EvIsA UsdGeomCapsule_1]).
Proof.
  intros HT. unfold GetPoints.
  rewrite (parameters_untyped _ _ HT). repeat split; reflexivity.
Qed.

(* ------------------------------------------------------------------------- *)
(** ** Further properties of the variability checks                           *)
(* ------------------------------------------------------------------------- *)

(** Case analysis on the guards of [TrackVariability], one after the other;
    the outcome of a guard is reused where the same mask is tested again. *)
Ltac reuse_guards :=
  repeat (progress
            (cbn [timeVaryingBits varyingChecks app];
             repeat match goal with
               | H : (Z.land _ _ =? 0) = _ |- _ => rewrite H
               end)).

Ltac split_guards :=
  reuse_guards;
  repeat (match goal with
          | |- context [Z.land ?x ?d =? 0] =>
              lazymatch x with
              | context [if _ then _ else _] => fail
              | _ => destruct (Z.land x d =? 0) eqn:?
              end
          end; reuse_guards).

(** A guard that failed contradicts a clear Points bit. *)
Ltac guard_contradiction :=
  match goal with
  | H : (Z.land ?x ?d =? 0) = false, H' : Z.land ?x ?d = 0 |- _ =>
      apply Z.eqb_neq in H; contradiction
  end.

(** X1. The attributes [TrackVariability] checks are always an initial part
    of [height], [radius], [axis]: they are checked in this order, none twice
    and none after one was skipped. *)
Theorem TrackVariability_checks_in_order prim cachePath bits instancerContext :
  varyingChecks (TrackVariability prim cachePath bits instancerContext)
    `prefix_of` [UsdGeomTokens.height; UsdGeomTokens.radius; UsdGeomTokens.axis].
Proof.
  unfold TrackVariability, check_varying. split_guards.
  all: repeat apply prefix_cons; apply prefix_nil.
Qed.

(** X2. When [TrackVariability] leaves the Points bit clear, the base adapter
    had left it clear and all three attributes were checked: Points is never
    reported as constant on a partial check. *)
Theorem TrackVariability_clear_means_all_checked prim cachePath bits
    instancerContext :
  Z.land (timeVaryingBits
            (TrackVariability prim cachePath bits instancerContext))
         DirtyPoints = 0 ->
  varyingChecks (TrackVariability prim cachePath bits instancerContext)
    = [UsdGeomTokens.height; UsdGeomTokens.radius; UsdGeomTokens.axis] /\
  Z.land (BaseAdapter_TrackVariability prim cachePath bits instancerContext)
         DirtyPoints = 0.
Proof.
  unfold TrackVariability, check_varying. split_guards; intros Hclear.
  all: try guard_contradiction.
  split; [reflexivity |]. apply Z.eqb_eq. assumption.
Qed.

(** X3. Every attribute [TrackVariability] checks for the Points category is
    an attribute whose change [ProcessPropertyChange] maps to [DirtyPoints]. *)
Theorem checked_attributes_dirty_points prim cachePath bits instancerContext
    attr prim' cachePath' :
  attr ∈ varyingChecks (TrackVariability prim cachePath bits instancerContext) ->
  ProcessPropertyChange prim' cachePath' attr = DirtyPoints.
Proof using Type.
  intros Hin. apply TrackVariability_checks_among in Hin.
  rewrite !elem_of_cons, elem_of_nil in Hin.
  destruct Hin as [-> | [-> | [-> | []]]]; reflexivity.
Qed.

(** X4. If [_IsVarying] does nothing to the mask but possibly set the flag it
    is given, [TrackVariability] returns the base adapter's mask with at most
    the Points bit added. *)
Theorem TrackVariability_adds_at_most_Points prim cachePath bits
    instancerContext :
  (forall attr flags,
     let flags' := _IsVarying prim attr DirtyPoints
                     UsdImagingTokens.usdVaryingPrimvar flags false in
     flags' = flags \/ flags' = Z.lor flags DirtyPoints) ->
  let b0 := BaseAdapter_TrackVariability prim cachePath bits instancerContext in
  let result := TrackVariability prim cachePath bits instancerContext in
  timeVaryingBits result = b0 \/
  timeVaryingBits result = Z.lor b0 DirtyPoints.
Proof.
  intros Hflag b0 result. subst result.
  assert (Hstep : forall attr v,
            timeVaryingBits v = b0 \/ timeVaryingBits v = Z.lor b0 DirtyPoints ->
            timeVaryingBits (check_varying prim attr v) = b0 \/
            timeVaryingBits (check_varying prim attr v) = Z.lor b0 DirtyPoints).
  { intros attr v Hv. unfold check_varying. cbn [timeVaryingBits].
    destruct (Hflag attr (timeVaryingBits v)) as [-> | ->]; [assumption |].
    destruct Hv as [-> | ->]; [right; reflexivity |].
    right. rewrite <- Z.lor_assoc, Z.lor_diag. reflexivity. }
  unfold TrackVariability. fold b0.
  set (v0 := {| timeVaryingBits := b0; varyingChecks := [] |}).
  assert (H0 : timeVaryingBits v0 = b0 \/
               timeVaryingBits v0 = Z.lor b0 DirtyPoints) by (left; reflexivity).
  cbv zeta.
  repeat match goal with
    | |- context [if ?c then check_varying prim ?a ?v else ?v] =>
        let H := fresh "H" in
        assert (H : timeVaryingBits (if c then check_varying prim a v else v) = b0 \/
                    timeVaryingBits (if c then check_varying prim a v else v)
                      = Z.lor b0 DirtyPoints)
          by (destruct c; [apply Hstep |]; assumption);
        generalize dependent (if c then check_varying prim a v else v); intros
    end.
  assumption.
Qed.

(* ------------------------------------------------------------------------- *)
(** ** Further properties of the parameters and the points                    *)
(* ------------------------------------------------------------------------- *)

(** Reads that agree on the attributes of the variant give the same locals. *)
Lemma parameters_agree T p q tp tq :
  primType p = Some T ->
  primType q = Some T ->
  attr_double p UsdGeomTokens.height tp = attr_double q UsdGeomTokens.height tq ->
  attr_token p UsdGeomTokens.axis tp = attr_token q UsdGeomTokens.axis tq ->
  match T with
  | UsdGeomCapsule =>
      attr_double p UsdGeomTokens.radius tp = attr_double q UsdGeomTokens.radius tq
  | UsdGeomCapsule_1 =>
      attr_double p UsdGeomTokens.radiusBottom tp
        = attr_double q UsdGeomTokens.radiusBottom tq /\
      attr_double p UsdGeomTokens.radiusTop tp
        = attr_double q UsdGeomTokens.radiusTop tq
  end ->
  outs (GetPoints_parameters p tp) = outs (GetPoints_parameters q tq).
Proof.
  intros Hp Hq Hh Ha Hr. destruct T.
  - rewrite (parameters_legacy _ _ Hp), (parameters_legacy _ _ Hq), Hh, Ha, Hr.
    reflexivity.
  - destruct Hr as [Hb Ht].
    rewrite (parameters_dual _ _ Hp), (parameters_dual _ _ Hq), Hh, Ha, Hb, Ht.
    reflexivity.
Qed.

(** The points are a function of the locals. *)
Lemma points_of_parameters p q tp tq :
  outs (GetPoints_parameters p tp) = outs (GetPoints_parameters q tq) ->
  fst (GetPoints p tp) = fst (GetPoints q tq).
Proof.
  intros E. unfold GetPoints. cbn [fst]. rewrite E. reflexivity.
Qed.

(** X5. The parameters and the points depend on the schema variant and on
    the attributes of that variant only: two reads (of two primitives, or of
    one primitive at two times) that agree on them give the same parameters
    and the same points, whatever else is authored. *)
Theorem GetPoints_depends_on_variant_attributes T p q tp tq :
  primType p = Some T ->
  primType q = Some T ->
  attr_double p UsdGeomTokens.height tp = attr_double q UsdGeomTokens.height tq ->
  attr_token p UsdGeomTokens.axis tp = attr_token q UsdGeomTokens.axis tq ->
  match T with
  | UsdGeomCapsule =>
      attr_double p UsdGeomTokens.radius tp = attr_double q UsdGeomTokens.radius tq
  | UsdGeomCapsule_1 =>
      attr_double p UsdGeomTokens.radiusBottom tp
        = attr_double q UsdGeomTokens.radiusBottom tq /\
      attr_double p UsdGeomTokens.radiusTop tp
        = attr_double q UsdGeomTokens.radiusTop tq
  end ->
  outs (GetPoints_parameters p tp) = outs (GetPoints_parameters q tq) /\
  fst (GetPoints p tp) = fst (GetPoints q tq).
Proof.
  intros Hp Hq Hh Ha Hr.
  pose proof (parameters_agree T p q tp tq Hp Hq Hh Ha Hr) as E.
  split; [exact E | exact (points_of_parameters _ _ _ _ E)].
Qed.

(** X6. Unless the primitive is of the dual-radius schema, the two radii
    handed to the generator are equal, whether or not the reads succeed. *)
Theorem radii_equal_unless_dual prim time :
  primType prim <> Some UsdGeomCapsule_1 ->
  radiusBottomOut (outs (GetPoints_parameters prim time))
    = radiusTopOut (outs (GetPoints_parameters prim time)).
Proof.
  intros Hnot. destruct (primType prim) as [[|]|] eqn:HT.
  - rewrite (parameters_legacy _ _ HT). reflexivity.
  - contradiction.
  - rewrite (parameters_untyped _ _ HT). reflexivity.
Qed.

(** X7. The order of the two extraction calls does not show in the result:
    from any values of the out-parameters, trying the dual-radius variant
    first leaves the same parameters, reads the same attributes and gives the
    same warnings as the order of the code. *)
Theorem extraction_order_irrelevant prim time (s : Env) :
  let legacy_first :=
    snd ((extractCapsuleParameters UsdGeomCapsule prim time ;;;
          extractCapsuleParameters UsdGeomCapsule_1 prim time) s) in
  let dual_first :=
    snd ((extractCapsuleParameters UsdGeomCapsule_1 prim time ;;;
          extractCapsuleParameters UsdGeomCapsule prim time) s) in
  outs legacy_first = outs dual_first /\
  attributes_read (trace legacy_first) = attributes_read (trace dual_first) /\
  warnings (trace legacy_first) = warnings (trace dual_first).
Proof.
  run_extract. unfold attributes_read, warnings.
  destruct (primType prim) as [[|]|]; simpl; split_reads; simpl;
    rewrite ?omap_app; simpl; rewrite ?app_nil_r; repeat split; reflexivity.
Qed.


Lemma write_from_within pts : forall i buf,
  (i + length pts <= length buf)%nat ->
  write_from i pts buf = take i buf ++ pts ++ drop (i + length pts) buf.
Proof.
  induction pts as [|p pts IH]; intros i buf Hlen; simpl in *.
  - rewrite Nat.add_0_r, take_drop. reflexivity.
  - rewrite IH by (rewrite length_insert; lia).
    rewrite take_insert_lt, drop_insert_lt by lia.
    rewrite (insert_take_drop (take (S i) buf)) by (rewrite length_take; lia).
    rewrite take_take, Nat.min_l by lia.
    rewrite drop_ge by (rewrite length_take; lia).
    rewrite <- app_assoc. simpl.
    replace (i + S (length pts))%nat with (S (i + length pts)) by lia.
    reflexivity.
Qed.

(** X8. A generator that writes no more points than the array holds
    overwrites an initial part of it: [GetPoints] returns the generated
    points followed by zero vectors up to [ComputeNumPoints], and exactly the
    generated points when their number is [ComputeNumPoints]. *)
Theorem GetPoints_holds_generated_points prim time :
  let p := outs (GetPoints_parameters prim time) in
  let generated :=
    GeneratePoints numRadial numCapAxial (radiusBottomOut p) (radiusTopOut p)
      (heightOut p) 360%float (GetImplicitBasis (axisOut p)) in
  let numPoints := ComputeNumPoints numRadial numCapAxial in
  (length generated <= numPoints)%nat ->
  fst (GetPoints prim time)
    = VtPoints (generated ++ VtVec3fArray (numPoints - length generated)) /\
  (length generated = numPoints -> fst (GetPoints prim time) = VtPoints generated).
Proof.
  intros p generated numPoints Hlen.
  assert (E : fst (GetPoints prim time)
              = VtPoints (generated ++ VtVec3fArray (numPoints - length generated))).
  { unfold GetPoints. cbn [fst]. fold p. fold generated. fold numPoints.
    rewrite write_from_within by (rewrite length_VtVec3fArray; exact Hlen).
    unfold VtVec3fArray. rewrite drop_replicate. reflexivity. }
  split; [exact E |].
  intros Heq. rewrite E, Heq, Nat.sub_diag. apply (f_equal VtPoints), app_nil_r.
Qed.

(* ------------------------------------------------------------------------- *)
(** ** The imaging subprims                                                   *)
(* ------------------------------------------------------------------------- *)

(** X9. The four subprim functions agree on which subprims there are. A
    name listed by [GetImagingSubprims] has the capsule type and a data
    source; any other name has the empty type, the null data source and no
    locators to invalidate. *)
Theorem imaging_subprims_consistent prim subprim stageGlobals properties :
  HdPrimTypeTokens_capsule <> TfToken_empty ->
  (subprim ∈ GetImagingSubprims prim <->
   GetImagingSubprimType prim subprim = HdPrimTypeTokens_capsule) /\
  (subprim ∈ GetImagingSubprims prim <->
   is_Some (GetImagingSubprimData prim subprim stageGlobals)) /\
  (subprim ∉ GetImagingSubprims prim ->
   GetImagingSubprimType prim subprim = TfToken_empty /\
   GetImagingSubprimData prim subprim stageGlobals = None /\
   InvalidateImagingSubprim prim subprim properties = []).
Proof using Type.
  intros Hcapsule.
  unfold GetImagingSubprims, GetImagingSubprimType, GetImagingSubprimData,
    InvalidateImagingSubprim, IsEmpty.
  rewrite list_elem_of_singleton.
  case_bool_decide as Hname.
  - split; [split; [reflexivity | intros _; exact Hname] |].
    split; [| intros Hout; contradiction].
    split; [eauto | intros _; exact Hname].
  - split; [| split].
    + split; [intros Hin; contradiction |].
      intros Htype. symmetry in Htype. contradiction.
    + split; [intros Hin; contradiction |].
      intros [source Hsource]. discriminate Hsource.
    + intros _. repeat split; reflexivity.
Qed.

(* ------------------------------------------------------------------------- *)
(** ** Variability and points together                                        *)
(* ------------------------------------------------------------------------- *)

(** X10. For a primitive that is not of the dual-radius schema the
    variability check is sound: if a clear Points bit after an [_IsVarying]
    call means that the attribute has one value at all times, then a clear
    Points bit after [TrackVariability] means that [GetPoints] returns the
    same points at all times. *)
Theorem TrackVariability_sound_unless_dual prim cachePath bits instancerContext :
  primType prim <> Some UsdGeomCapsule_1 ->
  (forall attr flags,
     Z.land (_IsVarying prim attr DirtyPoints
               UsdImagingTokens.usdVaryingPrimvar flags false) DirtyPoints = 0 ->
     forall t1 t2, primAttr prim attr t1 = primAttr prim attr t2) ->
  Z.land (timeVaryingBits
            (TrackVariability prim cachePath bits instancerContext))
         DirtyPoints = 0 ->
  forall t1 t2, fst (GetPoints prim t1) = fst (GetPoints prim t2).
Proof.
  intros Hnot Hsound Hclear t1 t2. apply points_of_parameters.
  destruct (primType prim) as [[|]|] eqn:HT; [| contradiction |].
  - revert Hclear. unfold TrackVariability, check_varying.
    split_guards; intros Hclear; try guard_contradiction.
    repeat match goal with
      | H : (Z.land _ _ =? 0) = true |- _ => apply Z.eqb_eq in H
      end.
    apply (parameters_agree UsdGeomCapsule); try assumption;
      unfold attr_double, attr_token;
      match goal with
      | |- context [primAttr prim ?a t1] =>
          rewrite (fun H => Hsound a _ H t1 t2) by eassumption
      end; reflexivity.
  - rewrite !(parameters_untyped _ _ HT). reflexivity.
Qed.

End Adapter.

(* ------------------------------------------------------------------------- *)
(** ** The sweep                                                              *)
(* ------------------------------------------------------------------------- *)

(** C10. [GetPoints] asks the generator for a full revolution only: the
    points it returns are the generator's for sweep 360 on the resolved
    parameters, so two generators that agree on sweep 360 give the same
    result for every primitive and time, whatever they do for other sweeps
    and whatever is authored on the primitive. *)
Theorem GetPoints_full_revolution numRadial numCapAxial ComputeNumPoints
    GetImplicitBasis
    (G G' : nat -> nat -> double -> double -> double -> double -> GfMatrix4d ->
            list GfVec3f)
    prim time :
  (forall nR nC rB rT h basis,
     G nR nC rB rT h 360%float basis = G' nR nC rB rT h 360%float basis) ->
  GetPoints numRadial numCapAxial ComputeNumPoints G GetImplicitBasis prim time
    = GetPoints numRadial numCapAxial ComputeNumPoints G' GetImplicitBasis prim time /\
  fst (GetPoints numRadial numCapAxial ComputeNumPoints G GetImplicitBasis prim time)
    = let p := outs (GetPoints_parameters prim time) in
      VtPoints
        (write_from 0
           (G numRadial numCapAxial (radiusBottomOut p) (radiusTopOut p)
              (heightOut p) 360%float (GetImplicitBasis (axisOut p)))
           (VtVec3fArray (ComputeNumPoints numRadial numCapAxial))).
Proof.
  intros Hagree. unfold GetPoints. rewrite Hagree. split; reflexivity.
Qed.

(* ------------------------------------------------------------------------- *)
(** ** Variability with the helper as the spec describes it                   *)
(* ------------------------------------------------------------------------- *)

Lemma land_lor_same (a b : Z) : Z.land (Z.lor a b) b = b.
Proof.
  apply Z.bits_inj'. intros n _.
  rewrite Z.land_spec, Z.lor_spec.
  destruct (Z.testbit a n), (Z.testbit b n); reflexivity.
Qed.

(** A varying height marks Points on the first check, and nothing is checked
    after it. *)
Lemma TrackVariability_varying_height DirtyPoints (Ctx : Type)
    (base : UsdPrim -> SdfPath -> HdDirtyBits -> Ctx -> HdDirtyBits)
    prim cachePath bits ctx :
  DirtyPoints <> 0 ->
  Z.land (base prim cachePath bits ctx) DirtyPoints = 0 ->
  primAttrVaries prim UsdGeomTokens.height = true ->
  TrackVariability DirtyPoints Ctx base Samples.IsVarying_spec
    prim cachePath bits ctx
  = {| timeVaryingBits := Z.lor (base prim cachePath bits ctx) DirtyPoints;
       varyingChecks := [UsdGeomTokens.height] |}.
Proof.
  intros Hbit Hclear Hvaries.
  unfold TrackVariability, check_varying, Samples.IsVarying_spec.
  cbn [timeVaryingBits varyingChecks].
  apply Z.eqb_neq in Hbit.
  rewrite Hclear, Hvaries. cbn [Z.eqb timeVaryingBits varyingChecks app].
  rewrite land_lor_same, Hbit. cbn [timeVaryingBits].
  rewrite land_lor_same, Hbit. reflexivity.
Qed.

(** When [height], [radius] and [axis] are constant the adapter adds nothing
    to the mask of the base adapter, whether or not [radiusBottom] or
    [radiusTop] vary. *)
Lemma TrackVariability_blind_to_dual_radii DirtyPoints (Ctx : Type)
    (base : UsdPrim -> SdfPath -> HdDirtyBits -> Ctx -> HdDirtyBits)
    prim cachePath bits ctx :
  primAttrVaries prim UsdGeomTokens.height = false ->
  primAttrVaries prim UsdGeomTokens.radius = false ->
  primAttrVaries prim UsdGeomTokens.axis = false ->
  timeVaryingBits
    (TrackVariability DirtyPoints Ctx base Samples.IsVarying_spec
       prim cachePath bits ctx)
  = base prim cachePath bits ctx.
Proof.
  intros Hh Hr Ha.
  unfold TrackVariability, check_varying, Samples.IsVarying_spec.
  cbn [timeVaryingBits varyingChecks].
  destruct (Z.land (base prim cachePath bits ctx) DirtyPoints =? 0) eqn:E;
    cbn [timeVaryingBits varyingChecks]; rewrite ?Hh, ?E;
    cbn [timeVaryingBits varyingChecks]; rewrite ?Hr, ?E;
    cbn [timeVaryingBits varyingChecks]; rewrite ?Ha; reflexivity.
Qed.

(* ------------------------------------------------------------------------- *)
(** ** What the code does not do                                              *)
(* ------------------------------------------------------------------------- *)

(** C6, as stated, fails: it would have the dual-radius variant tried first
    and the legacy variant tried only for a primitive that is not of the
    dual-radius variant. The dual-radius sample is of the newest variant; the
    first variant [GetPoints] tries for it is the legacy one. For the legacy
    sample the legacy attributes are read before the dual-radius variant is
    looked at. *)
Lemma GetPoints_not_newest_first :
  let dual := Samples.dualCapsule in
  let legacy := Samples.legacyCapsule in
  let time := Samples.frame 0%float in
  primType dual = Some UsdGeomCapsule_1 /\
  trace (GetPoints_parameters dual time)
    = [EvIsA UsdGeomCapsule; EvIsA UsdGeomCapsule_1;
       EvGet "height"; EvGet "radiusBottom"; EvGet "radiusTop"; EvGet "axis"] /\
  trace (GetPoints_parameters legacy time)
    = [EvIsA UsdGeomCapsule;
       EvGet "height"; EvGet "radius"; EvGet "axis";
       EvWarn "Could not evaluate token-valued axis attribute on prim /World/Legacy";
       EvIsA UsdGeomCapsule_1] /\
  ~ (forall prim time,
       let tr := trace (GetPoints_parameters prim time) in
       head (variants_tried tr) = Some UsdGeomCapsule_1 /\
       (UsdGeomCapsule ∈ variants_tried tr ->
        primType prim <> Some UsdGeomCapsule_1)).
Proof.
  repeat split.
  intros H.
  destruct (H Samples.dualCapsule (Samples.frame 0%float)) as [Hfirst _].
  vm_compute in Hfirst. discriminate Hfirst.
Qed.

(** C7, at a failing input. The dual-radius sample with an animated
    [radiusTop] gets different top radii at frames 0 and 12, so its points
    vary; [TrackVariability] asks about [height], [radius] and [axis] only,
    and leaves the Points bit clear. *)
Theorem TrackVariability_misses_radiusTop :
  let prim := Samples.flaringCapsule in
  let result :=
    TrackVariability Samples.sample_DirtyPoints unit
      Samples.quiet_TrackVariability Samples.IsVarying_spec
      prim (primPath prim) 0 tt in
  primType prim = Some UsdGeomCapsule_1 /\
  primAttrVaries prim UsdGeomTokens.radiusTop = true /\
  radiusTopOut (outs (GetPoints_parameters prim (Samples.frame 0%float)))
    = 0.5%float /\
  radiusTopOut (outs (GetPoints_parameters prim (Samples.frame 12%float)))
    = 1.0%float /\
  varyingChecks result
    = [UsdGeomTokens.height; UsdGeomTokens.radius; UsdGeomTokens.axis] /\
  Z.land (timeVaryingBits result) Samples.sample_DirtyPoints = 0.
Proof. repeat split; vm_compute; reflexivity. Qed.

(* ------------------------------------------------------------------------- *)
(** ** The theorems at the samples                                            *)
(* ------------------------------------------------------------------------- *)

(** C1 at the dual-radius sample: [radius] dirties Points, [visibility] is
    the base adapter's. *)
Lemma ProcessPropertyChange_mapping_witness :
  ProcessPropertyChange Samples.sample_DirtyPoints
    Samples.sample_ProcessPropertyChange Samples.dualCapsule "/World/Dual"
    "radius" = Samples.sample_DirtyPoints /\
  ProcessPropertyChange Samples.sample_DirtyPoints
    Samples.sample_ProcessPropertyChange Samples.dualCapsule "/World/Dual"
    "visibility" = Z.shiftl 1 10.
Proof.
  split.
  - apply (ProcessPropertyChange_mapping Samples.sample_DirtyPoints
             Samples.sample_ProcessPropertyChange Samples.dualCapsule
             "/World/Dual" "radius").
    right; left; reflexivity.
  - apply (proj2 (ProcessPropertyChange_mapping Samples.sample_DirtyPoints
             Samples.sample_ProcessPropertyChange Samples.dualCapsule
             "/World/Dual" "visibility")); discriminate.
Defined.

(** C2 for two calls in a row, on different primitives at different times. *)
Lemma GetTopology_constant_witness :
  let first_call :=
    GetTopology 3 1 Samples.sample_GenerateTopology None
      Samples.legacyCapsule "/World/Legacy" (Samples.frame 0%float) in
  fst first_call
    = fst (GetTopology 3 1 Samples.sample_GenerateTopology (snd first_call)
             Samples.coneCapsule "/World/Cone" (Samples.frame 12%float)).
Proof.
  apply (GetTopology_constant 3 1 Samples.sample_GenerateTopology).
  - apply reachable_start.
  - apply reachable_call, reachable_start.
Defined.

(** C4 at the sample with an animated height: from a clear mask only
    [height] is checked; from a mask with Points set nothing is. *)
Lemma TrackVariability_short_circuit_witness :
  TrackVariability Samples.sample_DirtyPoints unit
    Samples.quiet_TrackVariability Samples.IsVarying_spec
    Samples.growingCapsule "/World/Growing" 0 tt
  = {| timeVaryingBits := 32; varyingChecks := ["height"] |} /\
  TrackVariability Samples.sample_DirtyPoints unit
    Samples.quiet_TrackVariability Samples.IsVarying_spec
    Samples.growingCapsule "/World/Growing" 32 tt
  = {| timeVaryingBits := 32; varyingChecks := [] |}.
Proof.
  split.
  - destruct (TrackVariability_short_circuit Samples.sample_DirtyPoints unit
                Samples.quiet_TrackVariability Samples.IsVarying_spec
                Samples.growingCapsule "/World/Growing" 0 tt)
      as (_ & Hheight & _).
    apply Hheight; [reflexivity | discriminate].
  - destruct (TrackVariability_short_circuit Samples.sample_DirtyPoints unit
                Samples.quiet_TrackVariability Samples.IsVarying_spec
                Samples.growingCapsule "/World/Growing" 32 tt)
      as (Hset & _).
    apply Hset; discriminate.
Defined.

(** C5 at height 2.0 and radius 0.5. *)
Lemma legacy_matches_dual_radius_witness :
  fst (GetPoints 3 1 Samples.sample_ComputeNumPoints Samples.echo_GeneratePoints
         Samples.sample_GetImplicitBasis Samples.legacyCapsule
         (Samples.frame 0%float))
  = fst (GetPoints 3 1 Samples.sample_ComputeNumPoints
           Samples.echo_GeneratePoints Samples.sample_GetImplicitBasis
           Samples.dualCapsule (Samples.frame 0%float)).
Proof.
  apply (legacy_matches_dual_radius 3 1 Samples.sample_ComputeNumPoints
           Samples.echo_GeneratePoints Samples.sample_GetImplicitBasis
           Samples.legacyCapsule Samples.dualCapsule (Samples.frame 0%float)
           2.0%float 0.5%float); try reflexivity.
  left; reflexivity.
Defined.

(** C8 at the sample whose [radiusTop] cannot be read as a double. *)
Lemma parameter_reads_are_partial_witness :
  let env := GetPoints_parameters Samples.brokenTopCapsule
               (Samples.frame 0%float) in
  outs env = {| heightOut := 3.0%float; radiusBottomOut := 1.5%float;
                radiusTopOut := 0.5%float; axisOut := "Y" |} /\
  attributes_read (trace env)
    = ["height"; "radiusBottom"; "radiusTop"; "axis"] /\
  warnings (trace env)
    = ["Could not evaluate double-valued top radius attribute on prim /World/BrokenTop"].
Proof.
  destruct (parameter_reads_are_partial Samples.brokenTopCapsule
              (Samples.frame 0%float) UsdGeomCapsule_1 eq_refl)
    as (Hh & Ha & Hb & Ht & Hreads & Hwarn).
  split; [reflexivity |]. split; [exact Hreads | exact Hwarn].
Defined.

(** C9 at a sphere: its own radius and height are not looked at. *)
Lemma GetPoints_untyped_uses_defaults_witness :
  GetPoints 3 1 Samples.sample_ComputeNumPoints Samples.echo_GeneratePoints
    Samples.sample_GetImplicitBasis Samples.spherePrim (Samples.frame 0%float)
  = (VtPoints
       ({| vx := 0.5; vy := 0.5; vz := 2 |}%float ::
        {| vx := 360; vy := 0; vz := 0 |}%float ::
        {| vx := 1; vy := 0; vz := 0 |}%float ::
        {| vx := 0; vy := 1; vz := 0 |}%float ::
        {| vx := 0; vy := 0; vz := 1 |}%float ::
        replicate 3 {| vx := 0; vy := 0; vz := 0 |}%float),
     [EvIsA UsdGeomCapsule; EvIsA UsdGeomCapsule_1]).
Proof.
  apply (GetPoints_untyped_uses_defaults 3 1 Samples.sample_ComputeNumPoints
           Samples.echo_GeneratePoints Samples.sample_GetImplicitBasis
           Samples.spherePrim (Samples.frame 0%float) eq_refl).
Defined.

(** C10 with a generator that answers for sweep 360 only. *)
Lemma GetPoints_full_revolution_witness :
  GetPoints 3 1 Samples.sample_ComputeNumPoints Samples.echo_GeneratePoints
    Samples.sample_GetImplicitBasis Samples.coneCapsule (Samples.frame 0%float)
  = GetPoints 3 1 Samples.sample_ComputeNumPoints Samples.closed_GeneratePoints
      Samples.sample_GetImplicitBasis Samples.coneCapsule (Samples.frame 0%float).
Proof.
  apply (GetPoints_full_revolution 3 1 Samples.sample_ComputeNumPoints
           Samples.sample_GetImplicitBasis Samples.echo_GeneratePoints
           Samples.closed_GeneratePoints Samples.coneCapsule
           (Samples.frame 0%float)).
  intros nR nC rB rT h basis. reflexivity.
Defined.

(* ------------------------------------------------------------------------- *)
(** ** The further properties at the samples                                  *)
(* ------------------------------------------------------------------------- *)

(** X2 at the legacy sample, whose attributes are constant. *)
Lemma TrackVariability_clear_means_all_checked_witness :
  varyingChecks
    (TrackVariability Samples.sample_DirtyPoints unit
       Samples.quiet_TrackVariability Samples.IsVarying_spec
       Samples.legacyCapsule "/World/Legacy" 0 tt)
  = ["height"; "radius"; "axis"].
Proof.
  apply (TrackVariability_clear_means_all_checked Samples.sample_DirtyPoints
           unit Samples.quiet_TrackVariability Samples.IsVarying_spec
           Samples.legacyCapsule "/World/Legacy" 0 tt).
  reflexivity.
Defined.

(** X3 for the one attribute checked on the sample with an animated height. *)
Lemma checked_attributes_dirty_points_witness :
  ProcessPropertyChange Samples.sample_DirtyPoints
    Samples.sample_ProcessPropertyChange Samples.dualCapsule "/World/Dual"
    "height" = Samples.sample_DirtyPoints.
Proof.
  apply (checked_attributes_dirty_points Samples.sample_DirtyPoints unit
           Samples.quiet_TrackVariability Samples.sample_ProcessPropertyChange
           Samples.IsVarying_spec Samples.growingCapsule "/World/Growing" 0 tt
           "height" Samples.dualCapsule "/World/Dual").
  apply list_elem_of_here.
Defined.

(** X4 with the helper as the spec describes it, from a mask with bit 3 set. *)
Lemma TrackVariability_adds_at_most_Points_witness :
  let result :=
    TrackVariability Samples.sample_DirtyPoints unit
      Samples.quiet_TrackVariability Samples.IsVarying_spec
      Samples.growingCapsule "/World/Growing" 8 tt in
  timeVaryingBits result = 8 \/
  timeVaryingBits result = Z.lor 8 Samples.sample_DirtyPoints.
Proof.
  apply (TrackVariability_adds_at_most_Points Samples.sample_DirtyPoints unit
           Samples.quiet_TrackVariability Samples.IsVarying_spec
           Samples.growingCapsule "/World/Growing" 8 tt).
  intros attr flags. unfold Samples.IsVarying_spec.
  destruct (primAttrVaries Samples.growingCapsule attr); [right | left];
    reflexivity.
Defined.

(** X5 for the constant dual-radius sample and the flaring one at frame 0,
    where its top radius is 0.5 as well. *)
Lemma GetPoints_depends_on_variant_attributes_witness :
  fst (GetPoints 3 1 Samples.sample_ComputeNumPoints Samples.echo_GeneratePoints
         Samples.sample_GetImplicitBasis Samples.dualCapsule
         (Samples.frame 40%float))
  = fst (GetPoints 3 1 Samples.sample_ComputeNumPoints
           Samples.echo_GeneratePoints Samples.sample_GetImplicitBasis
           Samples.flaringCapsule (Samples.frame 0%float)).
Proof.
  apply (GetPoints_depends_on_variant_attributes 3 1
           Samples.sample_ComputeNumPoints Samples.echo_GeneratePoints
           Samples.sample_GetImplicitBasis UsdGeomCapsule_1
           Samples.dualCapsule Samples.flaringCapsule
           (Samples.frame 40%float) (Samples.frame 0%float));
    try reflexivity.
  split; reflexivity.
Defined.

(** X6 at the legacy sample. *)
Lemma radii_equal_unless_dual_witness :
  radiusBottomOut
    (outs (GetPoints_parameters Samples.legacyCapsule (Samples.frame 0%float)))
  = radiusTopOut
      (outs (GetPoints_parameters Samples.legacyCapsule (Samples.frame 0%float))).
Proof.
  apply (radii_equal_unless_dual Samples.legacyCapsule (Samples.frame 0%float)).
  discriminate.
Defined.

(** X8 with the echoing generator, which writes six of the eight points. *)
Lemma GetPoints_holds_generated_points_witness :
  fst (GetPoints 3 1 Samples.sample_ComputeNumPoints Samples.echo_GeneratePoints
         Samples.sample_GetImplicitBasis Samples.coneCapsule
         (Samples.frame 0%float))
  = VtPoints
      (Samples.echo_GeneratePoints 3 1 3.0%float 0.25%float 7.0%float 360%float
         (Samples.sample_GetImplicitBasis "X") ++
       VtVec3fArray 2).
Proof.
  apply (GetPoints_holds_generated_points 3 1 Samples.sample_ComputeNumPoints
           Samples.echo_GeneratePoints Samples.sample_GetImplicitBasis
           Samples.coneCapsule (Samples.frame 0%float)).
  vm_compute. lia.
Defined.

(** X9 for the empty subprim and for a subprim that does not exist. *)
Lemma imaging_subprims_consistent_witness :
  GetImagingSubprimType "capsule" Samples.dualCapsule "" = "capsule" /\
  InvalidateImagingSubprim Samples.sample_PrimSource_Invalidate
    Samples.dualCapsule "cap" ["radiusTop"] = [].
Proof.
  split.
  - apply (imaging_subprims_consistent "capsule" SdfPath unit
             Samples.sample_PrimSource_New Samples.sample_PrimSource_Invalidate
             Samples.dualCapsule "" tt []).
    + discriminate.
    + apply list_elem_of_here.
  - apply (imaging_subprims_consistent "capsule" SdfPath unit
             Samples.sample_PrimSource_New Samples.sample_PrimSource_Invalidate
             Samples.dualCapsule "cap" tt ["radiusTop"]).
    + discriminate.
    + intros Hin. apply list_elem_of_singleton in Hin. discriminate Hin.
Defined.

(** X10 at the legacy sample. *)
Lemma TrackVariability_sound_unless_dual_witness :
  fst (GetPoints 3 1 Samples.sample_ComputeNumPoints Samples.echo_GeneratePoints
         Samples.sample_GetImplicitBasis Samples.legacyCapsule
         (Samples.frame 0%float))
  = fst (GetPoints 3 1 Samples.sample_ComputeNumPoints
           Samples.echo_GeneratePoints Samples.sample_GetImplicitBasis
           Samples.legacyCapsule (Samples.frame 100%float)).
Proof.
  apply (TrackVariability_sound_unless_dual 3 1 Samples.sample_ComputeNumPoints
           Samples.echo_GeneratePoints Samples.sample_GetImplicitBasis
           Samples.sample_DirtyPoints unit Samples.quiet_TrackVariability
           Samples.IsVarying_spec Samples.legacyCapsule "/World/Legacy" 0 tt).
  - discriminate.
  - intros attr flags _ t1 t2. reflexivity.
  - reflexivity.
Defined.
